(** * Cloudnotes backend: authorization and membership core

    A shallow embedding of the tenant resolver, the authentication
    middleware, the role hierarchy, and the two implementations of the
    membership routes that live in the repository:

    - the in-memory routes ([routes/tenants.ts] exporting the [tenants] and
      [tenantMembers] maps, and the members router that imports them), and
    - the SQL routes (the [pool.request()] versions of the tenants, members
      and auth routers).

    JavaScript [Map]s are insertion-ordered association lists, SQL tables are
    lists of rows, [new Date()] is an integer number of milliseconds passed
    to each handler, and the outputs of [uuidv4()], [NEWID()] and
    [crypto.randomBytes] are passed in as arguments. *)

From Stdlib Require Import List String Ascii ZArith Bool Lia.
Import ListNotations.

Open Scope string_scope.
Open Scope list_scope.
Open Scope Z_scope.

(** [a === b] on strings *)
Notation "a ==? b" := (String.eqb a b) (at level 70, no associativity).

(* ================================================================== *)
(** ** Core types ([types/index.ts]) *)

Inductive Role := OWNER | ADMIN | EDITOR | VIEWER.

(** [RoleHierarchy]: higher number = more permissions. *)
Definition RoleHierarchy (r : Role) : Z :=
  match r with
  | VIEWER => 1
  | EDITOR => 2
  | ADMIN => 3
  | OWNER => 4
  end.

Definition Role_eqb (a b : Role) : bool :=
  match a, b with
  | OWNER, OWNER | ADMIN, ADMIN | EDITOR, EDITOR | VIEWER, VIEWER => true
  | _, _ => false
  end.

(** The string value of each member of the [Role] enum. *)
Definition Role_value (r : Role) : string :=
  match r with
  | OWNER => "owner"
  | ADMIN => "admin"
  | EDITOR => "editor"
  | VIEWER => "viewer"
  end.

(** Reading a role out of a request body: [Object.values(Role).includes(v)]
    holds exactly when this returns [Some _]. *)
Definition Role_of_value (v : string) : option Role :=
  if v ==? "owner" then Some OWNER
  else if v ==? "admin" then Some ADMIN
  else if v ==? "editor" then Some EDITOR
  else if v ==? "viewer" then Some VIEWER
  else None.

Inductive TenantStatus := ACTIVE | SUSPENDED | DELETED.

Inductive InvitationStatus := PENDING | ACCEPTED | REJECTED | EXPIRED.

Definition InvitationStatus_eqb (a b : InvitationStatus) : bool :=
  match a, b with
  | PENDING, PENDING | ACCEPTED, ACCEPTED
  | REJECTED, REJECTED | EXPIRED, EXPIRED => true
  | _, _ => false
  end.

Definition InvitationStatus_value (s : InvitationStatus) : string :=
  match s with
  | PENDING => "pending"
  | ACCEPTED => "accepted"
  | REJECTED => "rejected"
  | EXPIRED => "expired"
  end.

(* ================================================================== *)
(** ** Error classes ([middleware/errorHandler.ts]) *)

Inductive AppError :=
| ValidationError (message : string)
| NotFoundError (resource : string) (id : option string)
| UnauthorizedError (message : string)
| ForbiddenError (message : string)
| ConflictError (message : string).

Definition statusCode (e : AppError) : Z :=
  match e with
  | ValidationError _ => 400
  | NotFoundError _ _ => 404
  | UnauthorizedError _ => 401
  | ForbiddenError _ => 403
  | ConflictError _ => 409
  end.

Definition code (e : AppError) : string :=
  match e with
  | ValidationError _ => "VALIDATION_ERROR"
  | NotFoundError _ _ => "NOT_FOUND"
  | UnauthorizedError _ => "UNAUTHORIZED"
  | ForbiddenError _ => "FORBIDDEN"
  | ConflictError _ => "CONFLICT"
  end.

Definition message (e : AppError) : string :=
  match e with
  | ValidationError m | UnauthorizedError m | ForbiddenError m
  | ConflictError m => m
  | NotFoundError r (Some i) => (r ++ " with ID " ++ i ++ " not found")%string
  | NotFoundError r None => (r ++ " not found")%string
  end.

(** What a route handler produces: a JSON success body with its HTTP status,
    an [AppError] thrown into [asyncHandler] (turned by [errorHandler] into
    [statusCode]/[code]/[message]), an error body the handler sends itself,
    or an exception that is not an [AppError] (answered with 500). *)
Inductive Outcome (A : Type) :=
| Ok (status : Z) (data : A)
| Throw (e : AppError)
| Sent (status : Z) (errcode errmessage : string)
| Crash.
Arguments Ok {A} status data.
Arguments Throw {A} e.
Arguments Sent {A} status errcode errmessage.
Arguments Crash {A}.

(* ================================================================== *)
(** ** JavaScript values *)

(** Truthiness of a value that is a string or [undefined]. *)
Definition truthy (v : option string) : bool :=
  match v with
  | Some s => negb (s ==? "")
  | None => false
  end.

(** [a || b] *)
Definition js_or (a b : option string) : option string :=
  if truthy a then a else b.

(** [s.startsWith(p)] and [s.substring(n)] *)
Definition startsWith (s p : string) : bool := String.prefix p s.
Definition substring_from (n : nat) (s : string) : string :=
  String.substring n (String.length s - n) s.

(** Decoded token payload, as [jwt.verify] returns it. *)
Module JwtPayload.
Record t := mk {
  sub : option string;
  id : option string;
  email : string;
  name : string;
  tenantId : option string;
  role : option Role
}.
End JwtPayload.

Inductive VerifyResult :=
| Verified (decoded : JwtPayload.t)
| TokenExpiredError
| JsonWebTokenError
| OtherError.

(** Library functions whose results the code only passes along:
    [String.prototype.toLowerCase], [String.prototype.trim],
    [bcrypt.compare] and [jwt.verify(_, config.jwt.secret)]. *)
Class Platform := {
  toLowerCase : string -> string;
  trim : string -> string;
  bcrypt_compare : string -> string -> bool;
  jwt_verify : string -> VerifyResult
}.

(* ================================================================== *)
(** ** Middleware ([middleware/auth.ts], [middleware/tenant.ts],
       [middleware/rbac.ts]) *)

Module AuthenticatedUser.
Record t := mk {
  id : option string;
  email : string;
  name : string;
  tenantId : option string;
  role : option Role
}.
End AuthenticatedUser.

Module Request.
Record t := mk {
  authorization : option string;      (* req.headers.authorization *)
  x_tenant_id : option string;        (* req.headers['x-tenant-id'] *)
  params_tenantId : option string;    (* req.params.tenantId *)
  user : option AuthenticatedUser.t;  (* req.user *)
  tenantId : option string            (* req.tenantId *)
}.

Definition set_user (u : AuthenticatedUser.t) (req : t) : t :=
  mk (authorization req) (x_tenant_id req) (params_tenantId req)
     (Some u) (tenantId req).

Definition set_tenantId (v : option string) (req : t) : t :=
  mk (authorization req) (x_tenant_id req) (params_tenantId req)
     (user req) v.
End Request.

(** A middleware either calls [next()] with the (possibly updated) request
    or answers the request itself. *)
Inductive Middleware :=
| Next (req : Request.t)
| Respond (status : Z) (errcode errmessage : string).

Definition user_of_decoded (decoded : JwtPayload.t) : AuthenticatedUser.t :=
  AuthenticatedUser.mk
    (js_or (JwtPayload.sub decoded) (JwtPayload.id decoded))
    (JwtPayload.email decoded)
    (JwtPayload.name decoded)
    (JwtPayload.tenantId decoded)
    (JwtPayload.role decoded).

(** [!authHeader || !authHeader.startsWith('Bearer ')] *)
Definition no_bearer (authHeader : option string) : bool :=
  match authHeader with
  | None => true
  | Some h => negb (truthy (Some h)) || negb (startsWith h "Bearer ")
  end.

Section Auth.
Context {P : Platform}.

Definition authenticate (req : Request.t) : Middleware :=
  match Request.authorization req with
  | None => Respond 401 "UNAUTHORIZED" "No authentication token provided"
  | Some authHeader =>
      if no_bearer (Some authHeader)
      then Respond 401 "UNAUTHORIZED" "No authentication token provided"
      else
        match jwt_verify (substring_from 7 authHeader) with
        | Verified decoded =>
            Next (Request.set_user (user_of_decoded decoded) req)
        | TokenExpiredError =>
            Respond 401 "TOKEN_EXPIRED" "Authentication token has expired"
        | JsonWebTokenError =>
            Respond 401 "INVALID_TOKEN" "Invalid authentication token"
        | OtherError => Respond 500 "AUTH_ERROR" "Authentication failed"
        end
  end.

Definition optionalAuth (req : Request.t) : Middleware :=
  match Request.authorization req with
  | None => Next req
  | Some authHeader =>
      if no_bearer (Some authHeader) then Next req
      else
        match jwt_verify (substring_from 7 authHeader) with
        | Verified decoded =>
            Next (Request.set_user (user_of_decoded decoded) req)
        | _ => Next req   (* catch { } : errors are ignored *)
        end
  end.
End Auth.

(** Priority: URL param > Header > JWT claim *)
Definition extractTenant (req : Request.t) : Middleware :=
  let tenantId :=
    js_or (js_or (Request.params_tenantId req) (Request.x_tenant_id req))
          (match Request.user req with
           | Some u => AuthenticatedUser.tenantId u
           | None => None
           end) in
  if truthy tenantId then Next (Request.set_tenantId tenantId req)
  else Next req.

Definition requireTenant (req : Request.t) : Middleware :=
  if negb (truthy (Request.tenantId req))
  then Respond 400 "TENANT_REQUIRED"
         "A valid tenant context is required for this operation"
  else Next req.

(** The membership lookup in the source is commented out (a TODO), so the
    body only checks that a user and a tenant id are on the request. *)
Definition validateTenantMembership (req : Request.t) : Middleware :=
  match Request.user req with
  | None => Respond 401 "UNAUTHORIZED" "Authentication required"
  | Some _ =>
      if negb (truthy (Request.tenantId req))
      then Respond 400 "TENANT_REQUIRED" "Tenant context is required"
      else Next req
  end.

Definition requireMinRole (minRole : Role) (req : Request.t) : Middleware :=
  match Request.user req with
  | None => Respond 401 "UNAUTHORIZED" "Authentication required"
  | Some u =>
      match AuthenticatedUser.role u with
      | None =>
          Respond 403 "NO_TENANT_ACCESS"
            "You must be a member of a tenant to access this resource"
      | Some r =>
          if RoleHierarchy r <? RoleHierarchy minRole
          then Respond 403 "INSUFFICIENT_ROLE"
                 ("This action requires at least " ++ Role_value minRole
                  ++ " role")%string
          else Next req
      end
  end.

Definition hasMinRole (userRole : option Role) (minRole : Role) : bool :=
  match userRole with
  | None => false
  | Some r => RoleHierarchy minRole <=? RoleHierarchy r
  end.

(* ================================================================== *)
(** ** JavaScript [Map] as an insertion-ordered association list *)

Definition JsMap (V : Type) := list (string * V).

(** [Array.from(m.values())] *)
Definition map_values {V} (m : JsMap V) : list V := map snd m.

Definition map_keys {V} (m : JsMap V) : list string := map fst m.

(** [m.get(k)] *)
Fixpoint map_get {V} (k : string) (m : JsMap V) : option V :=
  match m with
  | [] => None
  | (k', v) :: rest => if k' ==? k then Some v else map_get k rest
  end.

(** [m.set(k, v)]: an existing key keeps its position, a new key goes last. *)
Fixpoint map_set {V} (k : string) (v : V) (m : JsMap V) : JsMap V :=
  match m with
  | [] => [(k, v)]
  | (k', v') :: rest =>
      if k' ==? k then (k, v) :: rest else (k', v') :: map_set k v rest
  end.

(** [m.delete(k)] *)
Fixpoint map_delete {V} (k : string) (m : JsMap V) : JsMap V :=
  match m with
  | [] => []
  | (k', v') :: rest =>
      if k' ==? k then rest else (k', v') :: map_delete k rest
  end.

(** Assigning to fields of the object returned by [m.get(k)]: the map holds
    the object itself, so the stored entry changes. *)
Fixpoint map_mutate {V} (k : string) (f : V -> V) (m : JsMap V) : JsMap V :=
  match m with
  | [] => []
  | (k', v') :: rest =>
      if k' ==? k then (k', f v') :: rest else (k', v') :: map_mutate k f rest
  end.

(** Assigning to fields of the object returned by
    [Array.from(m.values()).find(p)]. *)
Fixpoint find_mutate {V} (p : V -> bool) (f : V -> V) (m : JsMap V)
  : JsMap V :=
  match m with
  | [] => []
  | (k', v') :: rest =>
      if p v' then (k', f v') :: rest else (k', v') :: find_mutate p f rest
  end.

(* ================================================================== *)
(** ** Entities held by the in-memory stores *)

Module Tenant.
Record t := mk {
  id : string;
  name : string;
  slug : string;
  logoUrl : option string;
  status : TenantStatus;
  ownerId : string;
  createdAt : Z;
  updatedAt : Z
}.
End Tenant.

Module TenantMember.
Record t := mk {
  id : string;
  tenantId : string;
  userId : string;
  role : Role;
  joinedAt : Z;
  invitedBy : option string;
  isSuspended : bool;
  createdAt : Z;
  updatedAt : Z
}.

Definition set_role (r : Role) (now : Z) (m : t) : t :=
  mk (id m) (tenantId m) (userId m) r (joinedAt m) (invitedBy m)
     (isSuspended m) (createdAt m) now.

Definition set_isSuspended (b : bool) (now : Z) (m : t) : t :=
  mk (id m) (tenantId m) (userId m) (role m) (joinedAt m) (invitedBy m)
     b (createdAt m) now.
End TenantMember.

Module Invitation.
Record t := mk {
  id : string;
  tenantId : string;
  email : string;
  role : Role;
  status : InvitationStatus;
  invitedBy : string;
  token : string;
  expiresAt : Z;
  createdAt : Z;
  updatedAt : Z
}.

Definition set_status (s : InvitationStatus) (i : t) : t :=
  mk (id i) (tenantId i) (email i) (role i) s (invitedBy i) (token i)
     (expiresAt i) (createdAt i) (updatedAt i).

Definition set_updatedAt (now : Z) (i : t) : t :=
  mk (id i) (tenantId i) (email i) (role i) (status i) (invitedBy i)
     (token i) (expiresAt i) (createdAt i) now.
End Invitation.

(** The member view returned by [GET /api/v1/members]. *)
Module MemberView.
Record t := mk {
  id : string;
  userId : string;
  role : Role;
  joinedAt : Z;
  isSuspended : bool
}.
End MemberView.

(** [7 * 24 * 60 * 60 * 1000] *)
Definition seven_days_ms : Z := 7 * 24 * 60 * 60 * 1000.

(* ================================================================== *)
(** ** The in-memory routes

    [routes/tenants.ts] (the [tenants] and [tenantMembers] maps) and the
    members router built on them (the [invitations] map).  Each handler
    takes the store, what the preceding middleware left on the request
    ([req.user!.id], [req.user!.email], [req.tenantId!]), the route
    parameters and body fields, the values drawn from [uuidv4()] and the
    clock, and returns its outcome and the store afterwards. *)

Module Mem.

Record Store := mkStore {
  tenants : JsMap Tenant.t;
  tenantMembers : JsMap TenantMember.t;
  invitations : JsMap Invitation.t
}.

Definition empty : Store := mkStore [] [] [].

Definition with_tenants (ts : JsMap Tenant.t) (st : Store) : Store :=
  mkStore ts (tenantMembers st) (invitations st).

Definition with_tenantMembers (ms : JsMap TenantMember.t) (st : Store)
  : Store :=
  mkStore (tenants st) ms (invitations st).

Definition with_invitations (invs : JsMap Invitation.t) (st : Store)
  : Store :=
  mkStore (tenants st) (tenantMembers st) invs.

(** [m => m.tenantId === tenantId && m.userId === userId && !m.isSuspended] *)
Definition is_active_member (tenantId userId : string) (m : TenantMember.t)
  : bool :=
  (TenantMember.tenantId m ==? tenantId)
  && (TenantMember.userId m ==? userId)
  && negb (TenantMember.isSuspended m).

(** [m => m.tenantId === tenantId && m.userId === userId] *)
Definition is_member (tenantId userId : string) (m : TenantMember.t)
  : bool :=
  (TenantMember.tenantId m ==? tenantId)
  && (TenantMember.userId m ==? userId).

Definition activeMembership (st : Store) (tenantId userId : string)
  : option TenantMember.t :=
  find (is_active_member tenantId userId) (map_values (tenantMembers st)).

Definition has_token (token : string) (i : Invitation.t) : bool :=
  Invitation.token i ==? token.

(** [i => i.tenantId === tenantId && i.email === email
         && i.status === InvitationStatus.PENDING] *)
Definition is_pending_for (tenantId email : string) (i : Invitation.t)
  : bool :=
  (Invitation.tenantId i ==? tenantId)
  && (Invitation.email i ==? email)
  && InvitationStatus_eqb (Invitation.status i) PENDING.

(** [const { role = Role.VIEWER } = req.body] followed by
    [[Role.ADMIN, Role.EDITOR, Role.VIEWER].includes(role)] *)
Definition invite_role (role : option string) : option Role :=
  match role with
  | None => Some VIEWER
  | Some v =>
      match Role_of_value v with
      | Some OWNER | None => None
      | Some r => Some r
      end
  end.

(** [!role || !Object.values(Role).includes(role)] fails *)
Definition body_role (role : option string) : option Role :=
  match role with
  | None => None
  | Some v => Role_of_value v
  end.

Definition view (m : TenantMember.t) : MemberView.t :=
  MemberView.mk (TenantMember.id m) (TenantMember.userId m)
    (TenantMember.role m) (TenantMember.joinedAt m)
    (TenantMember.isSuspended m).

Section Routes.
Context {P : Platform}.

(** [POST /api/v1/tenants] *)
Definition post_tenant (st : Store) (userId : string)
    (name slug : option string)
    (generatedSlug tenantUuid memberUuid : string) (now : Z)
  : Outcome (Tenant.t * TenantMember.t) * Store :=
  match name with
  | None =>
      (Throw (ValidationError "Tenant name must be at least 2 characters"),
       st)
  | Some nm =>
      if (nm ==? "") || Nat.ltb (String.length (trim nm)) 2
      then
        (Throw (ValidationError "Tenant name must be at least 2 characters"),
         st)
      else
        let finalSlug := if truthy slug
                         then match slug with Some s => s | None => "" end
                         else generatedSlug in
        match find (fun t => Tenant.slug t ==? finalSlug)
                   (map_values (tenants st)) with
        | Some _ =>
            (Throw (ConflictError "A tenant with this slug already exists"),
             st)
        | None =>
            let tenant :=
              Tenant.mk tenantUuid (trim nm) finalSlug None ACTIVE userId
                        now now in
            let membership :=
              TenantMember.mk memberUuid tenantUuid userId OWNER now
                              (Some userId) false now now in
            (Ok 201 (tenant, membership),
             mkStore (map_set tenantUuid tenant (tenants st))
                     (map_set memberUuid membership (tenantMembers st))
                     (invitations st))
        end
  end.

(** [PUT /api/v1/tenants/:tenantId] ([settings] is a free-form object that
    no other route reads; it is left out) *)
Definition put_tenant (st : Store) (userId tenantId : string)
    (name logoUrl : option string) (now : Z)
  : Outcome Tenant.t * Store :=
  match map_get tenantId (tenants st) with
  | None => (Throw (NotFoundError "Tenant" (Some tenantId)), st)
  | Some tenant =>
      match Tenant.status tenant with
      | DELETED => (Throw (NotFoundError "Tenant" (Some tenantId)), st)
      | _ =>
          let forbidden :=
            (Sent 403 "FORBIDDEN" "Admin access required to update tenant",
             st) in
          match activeMembership st tenantId userId with
          | None => forbidden
          | Some membership =>
              match TenantMember.role membership with
              | OWNER | ADMIN =>
                  let update t :=
                    Tenant.mk (Tenant.id t)
                      (match name with
                       | Some n => if n ==? "" then Tenant.name t else trim n
                       | None => Tenant.name t
                       end)
                      (Tenant.slug t)
                      (match logoUrl with
                       | Some l => Some l
                       | None => Tenant.logoUrl t
                       end)
                      (Tenant.status t) (Tenant.ownerId t)
                      (Tenant.createdAt t) now in
                  (Ok 200 (update tenant),
                   with_tenants (map_mutate tenantId update (tenants st)) st)
              | _ => forbidden
              end
          end
      end
  end.

(** [DELETE /api/v1/tenants/:tenantId] (soft delete) *)
Definition delete_tenant (st : Store) (userId tenantId : string) (now : Z)
  : Outcome string * Store :=
  match map_get tenantId (tenants st) with
  | None => (Throw (NotFoundError "Tenant" (Some tenantId)), st)
  | Some tenant =>
      match Tenant.status tenant with
      | DELETED => (Throw (NotFoundError "Tenant" (Some tenantId)), st)
      | _ =>
          if negb (Tenant.ownerId tenant ==? userId)
          then (Sent 403 "FORBIDDEN" "Only the owner can delete a tenant", st)
          else
            let update t :=
              Tenant.mk (Tenant.id t) (Tenant.name t) (Tenant.slug t)
                (Tenant.logoUrl t) DELETED (Tenant.ownerId t)
                (Tenant.createdAt t) now in
            (Ok 200 "Tenant deleted successfully",
             with_tenants (map_mutate tenantId update (tenants st)) st)
      end
  end.

(** [GET /api/v1/members] *)
Definition get_members (st : Store) (userId tenantId : string)
  : Outcome (list MemberView.t) :=
  match activeMembership st tenantId userId with
  | None => Throw (ForbiddenError "You are not a member of this tenant")
  | Some _ =>
      Ok 200
         (map view
              (filter (fun m => TenantMember.tenantId m ==? tenantId)
                      (map_values (tenantMembers st))))
  end.

(** [POST /api/v1/members/invite] *)
Definition post_invite (st : Store) (userId tenantId : string)
    (email role : option string) (idUuid tokenUuid : string) (now : Z)
  : Outcome Invitation.t * Store :=
  match email with
  | None => (Throw (ValidationError "Email is required"), st)
  | Some email =>
      if email ==? "" then (Throw (ValidationError "Email is required"), st)
      else
        match invite_role role with
        | None =>
            (Throw (ValidationError "Invalid role. Cannot invite as owner."),
             st)
        | Some role =>
            match activeMembership st tenantId userId with
            | None =>
                (Throw (ForbiddenError "You are not a member of this tenant"),
                 st)
            | Some inviterMembership =>
                match TenantMember.role inviterMembership with
                | OWNER | ADMIN =>
                    match find (is_pending_for tenantId (toLowerCase email))
                               (map_values (invitations st)) with
                    | Some _ =>
                        (Throw (ValidationError
                           "An invitation for this email is already pending"),
                         st)
                    | None =>
                        let invitation :=
                          Invitation.mk idUuid tenantId (toLowerCase email)
                            role PENDING userId tokenUuid
                            (now + seven_days_ms) now now in
                        (Ok 201 invitation,
                         with_invitations
                           (map_set idUuid invitation (invitations st)) st)
                    end
                | _ =>
                    (Throw (ForbiddenError
                       "Only admins and owners can invite members"), st)
                end
            end
        end
  end.

(** [POST /api/v1/members/invitations/:token/accept] *)
Definition post_invitations_accept (st : Store) (userId userEmail : string)
    (token : string) (memberUuid : string) (now : Z)
  : Outcome (option Tenant.t * Role) * Store :=
  match find (has_token token) (map_values (invitations st)) with
  | None => (Throw (NotFoundError "Invitation" None), st)
  | Some invitation =>
      if negb (InvitationStatus_eqb (Invitation.status invitation) PENDING)
      then
        (Throw (ValidationError
                  ("Invitation has already been "
                   ++ InvitationStatus_value (Invitation.status invitation))
                  %string), st)
      else if Invitation.expiresAt invitation <? now
      then
        (Throw (ValidationError "Invitation has expired"),
         with_invitations
           (find_mutate (has_token token) (Invitation.set_status EXPIRED)
                        (invitations st)) st)
      else if negb (toLowerCase userEmail ==? Invitation.email invitation)
      then
        (Throw (ForbiddenError
                  "This invitation was sent to a different email address"),
         st)
      else
        match find (is_member (Invitation.tenantId invitation) userId)
                   (map_values (tenantMembers st)) with
        | Some _ =>
            (Throw (ValidationError
                      "You are already a member of this tenant"), st)
        | None =>
            let membership :=
              TenantMember.mk memberUuid (Invitation.tenantId invitation)
                userId (Invitation.role invitation) now
                (Some (Invitation.invitedBy invitation)) false now now in
            (Ok 200 (map_get (Invitation.tenantId invitation) (tenants st),
                     TenantMember.role membership),
             mkStore (tenants st)
               (map_set memberUuid membership (tenantMembers st))
               (find_mutate (has_token token)
                  (fun i => Invitation.set_updatedAt now
                              (Invitation.set_status ACCEPTED i))
                  (invitations st)))
        end
  end.

(** [PUT /api/v1/members/:memberId/role] *)
Definition put_member_role (st : Store) (userId tenantId : string)
    (memberId : string) (role : option string) (now : Z)
  : Outcome TenantMember.t * Store :=
  match body_role role with
  | None => (Throw (ValidationError "Valid role is required"), st)
  | Some role =>
      match map_get memberId (tenantMembers st) with
      | None => (Throw (NotFoundError "Member" (Some memberId)), st)
      | Some targetMember =>
          if negb (TenantMember.tenantId targetMember ==? tenantId)
          then (Throw (NotFoundError "Member" (Some memberId)), st)
          else
            match activeMembership st tenantId userId with
            | None =>
                (Throw (ForbiddenError "You are not a member of this tenant"),
                 st)
            | Some currentMembership =>
                let currentLevel :=
                  RoleHierarchy (TenantMember.role currentMembership) in
                let targetLevel :=
                  RoleHierarchy (TenantMember.role targetMember) in
                let newLevel := RoleHierarchy role in
                if Role_eqb (TenantMember.role targetMember) OWNER
                then
                  (Throw (ForbiddenError
                            "Cannot change the role of an owner"), st)
                else if Role_eqb role OWNER
                then
                  (Throw (ForbiddenError
                     "Cannot promote to owner. Use ownership transfer instead."),
                   st)
                else if currentLevel <=? targetLevel
                then
                  (Throw (ForbiddenError
                     "Cannot modify role of someone with equal or higher role"),
                   st)
                else if (currentLevel <=? newLevel)
                        && negb (Role_eqb
                                   (TenantMember.role currentMembership)
                                   OWNER)
                then
                  (Throw (ForbiddenError
                     "Cannot promote member to a role equal or higher than your own"),
                   st)
                else
                  (Ok 200 (TenantMember.set_role role now targetMember),
                   with_tenantMembers
                     (map_mutate memberId (TenantMember.set_role role now)
                                 (tenantMembers st)) st)
            end
      end
  end.

(** [DELETE /api/v1/members/:memberId] *)
Definition delete_member (st : Store) (userId tenantId : string)
    (memberId : string)
  : Outcome string * Store :=
  match map_get memberId (tenantMembers st) with
  | None => (Throw (NotFoundError "Member" (Some memberId)), st)
  | Some targetMember =>
      if negb (TenantMember.tenantId targetMember ==? tenantId)
      then (Throw (NotFoundError "Member" (Some memberId)), st)
      else if Role_eqb (TenantMember.role targetMember) OWNER
      then
        (Throw (ForbiddenError
                  "Cannot remove the owner. Transfer ownership first."), st)
      else
        match activeMembership st tenantId userId with
        | None =>
            (Throw (ForbiddenError "You are not a member of this tenant"),
             st)
        | Some currentMembership =>
            let isSelf := TenantMember.userId targetMember ==? userId in
            let isAdmin :=
              Role_eqb (TenantMember.role currentMembership) OWNER
              || Role_eqb (TenantMember.role currentMembership) ADMIN in
            if negb isSelf && negb isAdmin
            then
              (Throw (ForbiddenError
                 "You do not have permission to remove this member"), st)
            else if negb isSelf
                    && (RoleHierarchy (TenantMember.role currentMembership)
                        <=? RoleHierarchy (TenantMember.role targetMember))
            then
              (Throw (ForbiddenError
                 "Cannot remove someone with equal or higher role"), st)
            else
              (Ok 200 "Member removed successfully",
               with_tenantMembers
                 (map_delete memberId (tenantMembers st)) st)
        end
  end.

(** [PUT /api/v1/members/:memberId/suspend] *)
Definition put_member_suspend (st : Store) (userId tenantId : string)
    (memberId : string) (now : Z)
  : Outcome TenantMember.t * Store :=
  match map_get memberId (tenantMembers st) with
  | None => (Throw (NotFoundError "Member" (Some memberId)), st)
  | Some targetMember =>
      if negb (TenantMember.tenantId targetMember ==? tenantId)
      then (Throw (NotFoundError "Member" (Some memberId)), st)
      else if Role_eqb (TenantMember.role targetMember) OWNER
      then (Throw (ForbiddenError "Cannot suspend the owner"), st)
      else if TenantMember.userId targetMember ==? userId
      then (Throw (ForbiddenError "Cannot suspend yourself"), st)
      else
        let denied := (Throw (ForbiddenError "Admin access required"), st) in
        match activeMembership st tenantId userId with
        | None => denied
        | Some currentMembership =>
            match TenantMember.role currentMembership with
            | OWNER | ADMIN =>
                if RoleHierarchy (TenantMember.role currentMembership)
                   <=? RoleHierarchy (TenantMember.role targetMember)
                then
                  (Throw (ForbiddenError
                     "Cannot suspend someone with equal or higher role"), st)
                else
                  (Ok 200 (TenantMember.set_isSuspended true now targetMember),
                   with_tenantMembers
                     (map_mutate memberId
                        (TenantMember.set_isSuspended true now)
                        (tenantMembers st)) st)
            | _ => denied
            end
        end
  end.

(** *** The store as a transition system *)

(** One request that can change the store, with the values the handler
    draws from [uuidv4()] and the clock. *)
Inductive Request :=
| PostTenant (userId : string) (name slug : option string)
    (generatedSlug tenantUuid memberUuid : string) (now : Z)
| PutTenant (userId tenantId : string) (name logoUrl : option string)
    (now : Z)
| DeleteTenant (userId tenantId : string) (now : Z)
| PostInvite (userId tenantId : string) (email role : option string)
    (idUuid tokenUuid : string) (now : Z)
| PostAccept (userId userEmail token memberUuid : string) (now : Z)
| PutMemberRole (userId tenantId memberId : string) (role : option string)
    (now : Z)
| DeleteMember (userId tenantId memberId : string)
| PutMemberSuspend (userId tenantId memberId : string) (now : Z).

(** The store after the handler of a request has run. *)
Definition after (st : Store) (r : Request) : Store :=
  match r with
  | PostTenant u n s g t m now => snd (post_tenant st u n s g t m now)
  | PutTenant u t n l now => snd (put_tenant st u t n l now)
  | DeleteTenant u t now => snd (delete_tenant st u t now)
  | PostInvite u t e r i k now => snd (post_invite st u t e r i k now)
  | PostAccept u e k m now => snd (post_invitations_accept st u e k m now)
  | PutMemberRole u t m r now => snd (put_member_role st u t m r now)
  | DeleteMember u t m => snd (delete_member st u t m)
  | PutMemberSuspend u t m now => snd (put_member_suspend st u t m now)
  end.

(** [uuidv4()] returns an identifier that is not yet a key of the map it
    is about to be used in. *)
Definition fresh (st : Store) (r : Request) : Prop :=
  match r with
  | PostTenant _ _ _ _ tenantUuid memberUuid _ =>
      ~ In tenantUuid (map_keys (tenants st))
      /\ ~ In memberUuid (map_keys (tenantMembers st))
  | PostInvite _ _ _ _ idUuid _ _ =>
      ~ In idUuid (map_keys (invitations st))
  | PostAccept _ _ _ memberUuid _ =>
      ~ In memberUuid (map_keys (tenantMembers st))
  | _ => True
  end.

(** The requests that act on an existing membership. *)
Definition member_operation (r : Request) : bool :=
  match r with
  | PutMemberRole _ _ _ _ _ | DeleteMember _ _ _
  | PutMemberSuspend _ _ _ _ => true
  | _ => false
  end.

Inductive reachable : Store -> Prop :=
| reachable_empty : reachable empty
| reachable_after st r :
    reachable st -> fresh st r -> reachable (after st r).

End Routes.

(** The OWNER memberships of a tenant, in map order. *)
Definition owners_of (st : Store) (tenantId : string)
  : list TenantMember.t :=
  filter (fun m => (TenantMember.tenantId m ==? tenantId)
                   && Role_eqb (TenantMember.role m) OWNER)
         (map_values (tenantMembers st)).


(** How many memberships a user holds in a tenant. *)
Definition membership_count (st : Store) (tenantId userId : string) : nat :=
  List.length (filter (is_member tenantId userId)
                      (map_values (tenantMembers st))).

End Mem.

(* ================================================================== *)
(** ** The SQL routes

    The [pool.request()] versions of the tenants, members and auth routers.
    A table is the list of its rows in insertion order, [SELECT ... WHERE]
    is [filter], [recordset[0]] is the head of the result, [UPDATE ... WHERE]
    is [map], [DELETE ... WHERE] is [filter] on the complement, string
    comparison in a [WHERE] clause is equality, and [NEWID()],
    [crypto.randomBytes], [jwt.sign] and [bcrypt.hash] results are
    arguments.  Only the columns that some modelled route reads are kept. *)

Module Sql.

Module User.
Record t := mk {
  id : string;
  email : string;
  name : string;
  password_hash : option string
}.
End User.

Module TenantRow.
Record t := mk {
  id : string;
  name : string;
  slug : string;
  status : TenantStatus;
  owner_id : string
}.
End TenantRow.

Module Member.
Record t := mk {
  id : string;
  tenant_id : string;
  user_id : string;
  role : Role;
  joined_at : Z;
  invited_by : option string;
  is_suspended : bool
}.

Definition set_role (r : Role) (m : t) : t :=
  mk (id m) (tenant_id m) (user_id m) r (joined_at m) (invited_by m)
     (is_suspended m).
End Member.

Module InvitationRow.
Record t := mk {
  id : string;
  tenant_id : string;
  email : string;
  role : Role;
  status : InvitationStatus;
  token : string;
  invited_by : string;
  invitee_id : option string;
  expires_at : Z;
  accepted_at : option Z
}.

Definition accept (now : Z) (i : t) : t :=
  mk (id i) (tenant_id i) (email i) (role i) ACCEPTED (token i)
     (invited_by i) (invitee_id i) (expires_at i) (Some now).
End InvitationRow.

Module RefreshToken.
Record t := mk {
  id : string;
  user_id : string;
  token_hash : string;
  expires_at : Z;
  revoked_at : option Z
}.

Definition revoke (now : Z) (r : t) : t :=
  mk (id r) (user_id r) (token_hash r) (expires_at r) (Some now).
End RefreshToken.

Record Db := mkDb {
  users : list User.t;
  tenants : list TenantRow.t;
  tenant_members : list Member.t;
  invitations : list InvitationRow.t;
  refresh_tokens : list RefreshToken.t
}.

Definition empty : Db := mkDb [] [] [] [] [].

Definition with_tenant_members (ms : list Member.t) (db : Db) : Db :=
  mkDb (users db) (tenants db) ms (invitations db) (refresh_tokens db).

Definition with_refresh_tokens (rs : list RefreshToken.t) (db : Db) : Db :=
  mkDb (users db) (tenants db) (tenant_members db) (invitations db) rs.

(** The answers of [requireMinRole(minRole)] and [requireRole(...allowed)]
    for an authenticated user whose token carries [claim] as its role. *)
Definition min_role_denied (minRole : Role) (claim : option Role)
  : option (Z * string * string) :=
  match claim with
  | None =>
      Some (403, "NO_TENANT_ACCESS",
            "You must be a member of a tenant to access this resource")
  | Some r =>
      if RoleHierarchy r <? RoleHierarchy minRole
      then Some (403, "INSUFFICIENT_ROLE",
                 ("This action requires at least " ++ Role_value minRole
                  ++ " role")%string)
      else None
  end.

Definition owner_denied (claim : option Role)
  : option (Z * string * string) :=
  match claim with
  | None =>
      Some (403, "NO_TENANT_ACCESS",
            "You must be a member of a tenant to access this resource")
  | Some OWNER => None
  | Some _ =>
      Some (403, "INSUFFICIENT_ROLE",
            "This action requires one of the following roles: owner")
  end.

Definition sent {A} (r : Z * string * string) : Outcome A :=
  let '(s, c, m) := r in Sent s c m.

(** [WHERE tenant_id = @tenant_id AND user_id = @user_id] *)
Definition member_of (tenantId userId : string) (m : Member.t) : bool :=
  (Member.tenant_id m ==? tenantId) && (Member.user_id m ==? userId).

(** [WHERE id = @member_id AND tenant_id = @tenant_id] *)
Definition member_in (memberId tenantId : string) (m : Member.t) : bool :=
  (Member.id m ==? memberId) && (Member.tenant_id m ==? tenantId).

(** [validRoles = [Role.VIEWER, Role.EDITOR, Role.ADMIN]] with
    [validRoles.includes(role)] *)
Definition valid_role (role : string) : option Role :=
  match Role_of_value role with
  | Some OWNER | None => None
  | Some r => Some r
  end.

Section Routes.
Context {P : Platform}.

(** [POST /api/v1/tenants] *)
Definition post_tenant (db : Db) (userId : string)
    (name slug : option string)
    (generatedSlug tenantNewid memberNewid : string) (now : Z)
  : Outcome (TenantRow.t * Member.t) * Db :=
  match name with
  | None =>
      (Throw (ValidationError "Tenant name must be at least 2 characters"),
       db)
  | Some nm =>
      if (nm ==? "") || Nat.ltb (String.length (trim nm)) 2
      then
        (Throw (ValidationError "Tenant name must be at least 2 characters"),
         db)
      else
        let finalSlug := if truthy slug
                         then match slug with Some s => s | None => "" end
                         else generatedSlug in
        match filter (fun t => TenantRow.slug t ==? finalSlug)
                     (tenants db) with
        | _ :: _ =>
            (Throw (ConflictError "A tenant with this slug already exists"),
             db)
        | [] =>
            let tenant :=
              TenantRow.mk tenantNewid (trim nm) finalSlug ACTIVE userId in
            let membership :=
              Member.mk memberNewid tenantNewid userId OWNER now
                        (Some userId) false in
            (Ok 201 (tenant, membership),
             mkDb (users db) (tenants db ++ [tenant])
                  (tenant_members db ++ [membership])
                  (invitations db) (refresh_tokens db))
        end
  end.

(** [PUT /api/v1/tenants/:tenantId]; the [settings] column is not kept,
    [settings] tells whether the body field is truthy. *)
Definition put_tenant (db : Db) (claim : option Role) (tenantId : string)
    (name : option string) (settings : bool)
  : Outcome (option TenantRow.t) * Db :=
  match min_role_denied ADMIN claim with
  | Some r => (sent r, db)
  | None =>
      if truthy name
         && Nat.ltb (String.length
                       (trim (match name with Some n => n | None => "" end)))
                    2
      then
        (Throw (ValidationError "Tenant name must be at least 2 characters"),
         db)
      else if negb (truthy name) && negb settings
      then (Throw (ValidationError "No valid fields to update"), db)
      else
        let update t :=
          if TenantRow.id t ==? tenantId
          then TenantRow.mk (TenantRow.id t)
                 (match name with
                  | Some n => if n ==? "" then TenantRow.name t else trim n
                  | None => TenantRow.name t
                  end)
                 (TenantRow.slug t) (TenantRow.status t)
                 (TenantRow.owner_id t)
          else t in
        let tenants' := map update (tenants db) in
        (Ok 200 (hd_error (filter (fun t => TenantRow.id t ==? tenantId)
                                  tenants')),
         mkDb (users db) tenants' (tenant_members db) (invitations db)
              (refresh_tokens db))
  end.

(** [DELETE /api/v1/tenants/:tenantId]; the rows of [tenant_members] and
    [invitations] that reference the tenant go with it
    ([ON DELETE CASCADE]). *)
Definition delete_tenant (db : Db) (claim : option Role) (tenantId : string)
  : Outcome string * Db :=
  match owner_denied claim with
  | Some r => (sent r, db)
  | None =>
      (Ok 200 "Tenant deleted successfully",
       mkDb (users db)
         (filter (fun t => negb (TenantRow.id t ==? tenantId)) (tenants db))
         (filter (fun m => negb (Member.tenant_id m ==? tenantId))
                 (tenant_members db))
         (filter (fun i => negb (InvitationRow.tenant_id i ==? tenantId))
                 (invitations db))
         (refresh_tokens db))
  end.

(** [POST /api/v1/members/invite] *)
Definition post_invite (db : Db) (claim : option Role)
    (inviterId tenantId : string) (email role : option string)
    (idNewid token : string) (now : Z)
  : Outcome InvitationRow.t * Db :=
  match min_role_denied ADMIN claim with
  | Some r => (sent r, db)
  | None =>
      if negb (truthy email) || negb (truthy role)
      then (Throw (ValidationError "Email and role are required"), db)
      else
        let email := match email with Some e => e | None => "" end in
        let role := match role with Some r => r | None => "" end in
        match valid_role role with
        | None =>
            (Throw (ValidationError
                      "Invalid role. Must be VIEWER, EDITOR, or ADMIN"), db)
        | Some role =>
            let userResult :=
              filter (fun u => User.email u ==? toLowerCase email)
                     (users db) in
            let inviteeId := option_map User.id (hd_error userResult) in
            let already :=
              match inviteeId with
              | Some uid =>
                  existsb (member_of tenantId uid) (tenant_members db)
              | None => false
              end in
            if already
            then
              (Throw (ValidationError
                        "User is already a member of this tenant"), db)
            else
              let invitation :=
                InvitationRow.mk idNewid tenantId (toLowerCase email) role
                  PENDING token inviterId inviteeId (now + seven_days_ms)
                  None in
              (Ok 201 invitation,
               mkDb (users db) (tenants db) (tenant_members db)
                    (invitations db ++ [invitation]) (refresh_tokens db))
        end
  end.

(** [WHERE token = @token AND status = 'pending'
          AND expires_at > GETUTCDATE()] *)
Definition acceptable (token : string) (now : Z) (i : InvitationRow.t)
  : bool :=
  (InvitationRow.token i ==? token)
  && InvitationStatus_eqb (InvitationRow.status i) PENDING
  && (now <? InvitationRow.expires_at i).

(** [POST /api/v1/members/invite/:token/accept] *)
Definition post_invite_accept (db : Db) (userId token : string)
    (memberNewid : string) (now : Z)
  : Outcome Member.t * Db :=
  match filter (acceptable token now) (invitations db) with
  | [] => (Throw (NotFoundError "Invalid or expired invitation" None), db)
  | invitation :: _ =>
      match filter (fun u => User.id u ==? userId) (users db) with
      | [] => (Crash, db)        (* userResult.recordset[0] is undefined *)
      | user :: _ =>
          if negb (toLowerCase (User.email user)
                   ==? toLowerCase (InvitationRow.email invitation))
          then
            (Throw (ForbiddenError
                      "This invitation is for a different email address"),
             db)
          else if existsb (member_of (InvitationRow.tenant_id invitation)
                                     userId) (tenant_members db)
          then
            (Throw (ValidationError
                      "You are already a member of this tenant"), db)
          else
            let membership :=
              Member.mk memberNewid (InvitationRow.tenant_id invitation)
                userId (InvitationRow.role invitation) now
                (Some (InvitationRow.invited_by invitation)) false in
            (Ok 200 membership,
             mkDb (users db) (tenants db)
               (tenant_members db ++ [membership])
               (map (fun i =>
                       if InvitationRow.id i
                          ==? InvitationRow.id invitation
                       then InvitationRow.accept now i else i)
                    (invitations db))
               (refresh_tokens db))
      end
  end.

(** [PUT /api/v1/members/:memberId] *)
Definition put_member (db : Db) (claim : option Role)
    (requesterId tenantId memberId : string) (role : option string)
  : Outcome (string * string * Role) * Db :=
  match min_role_denied ADMIN claim with
  | Some r => (sent r, db)
  | None =>
      if negb (truthy role)
      then (Throw (ValidationError "Role is required"), db)
      else
        match valid_role (match role with Some r => r | None => "" end) with
        | None => (Throw (ValidationError "Invalid role"), db)
        | Some role =>
            match filter (member_in memberId tenantId)
                         (tenant_members db) with
            | [] => (Throw (NotFoundError "Member not found" None), db)
            | member :: _ =>
                if Role_eqb (Member.role member) OWNER
                then (Throw (ForbiddenError "Cannot change owner role"), db)
                else if Member.user_id member ==? requesterId
                then
                  (Throw (ForbiddenError "Cannot change your own role"), db)
                else
                  (Ok 200 (Member.id member, Member.user_id member, role),
                   with_tenant_members
                     (map (fun m =>
                             if Member.id m ==? memberId
                             then Member.set_role role m else m)
                          (tenant_members db)) db)
            end
        end
  end.

(** [DELETE /api/v1/members/:memberId] *)
Definition delete_member (db : Db) (claim : option Role)
    (requesterId tenantId memberId : string)
  : Outcome string * Db :=
  match min_role_denied ADMIN claim with
  | Some r => (sent r, db)
  | None =>
      match filter (member_in memberId tenantId) (tenant_members db) with
      | [] => (Throw (NotFoundError "Member not found" None), db)
      | member :: _ =>
          if Role_eqb (Member.role member) OWNER
          then (Throw (ForbiddenError "Cannot remove owner"), db)
          else if Member.user_id member ==? requesterId
          then
            (Throw (ForbiddenError
                      "Cannot remove yourself. Use leave endpoint instead"),
             db)
          else
            (Ok 200 "Member removed successfully",
             with_tenant_members
               (filter (fun m => negb (Member.id m ==? memberId))
                       (tenant_members db)) db)
      end
  end.

(** [POST /api/v1/members/leave] *)
Definition post_leave (db : Db) (userId tenantId : string)
  : Outcome string * Db :=
  match filter (member_of tenantId userId) (tenant_members db) with
  | [] => (Throw (NotFoundError "Membership not found" None), db)
  | member :: _ =>
      if Role_eqb (Member.role member) OWNER
      then
        (Throw (ForbiddenError
           "Owner cannot leave. Transfer ownership or delete the tenant instead"),
         db)
      else
        (Ok 200 "Successfully left the team",
         with_tenant_members
           (filter (fun m => negb (Member.id m ==? Member.id member))
                   (tenant_members db)) db)
  end.

(** [INSERT INTO refresh_tokens] of register and login: the hash of the
    issued token, valid for seven days. *)
Definition store_refresh_token (rowNewid userId tokenHash : string)
    (now : Z) (db : Db) : Db :=
  with_refresh_tokens
    (refresh_tokens db
     ++ [RefreshToken.mk rowNewid userId tokenHash (now + seven_days_ms)
                         None]) db.

(** [POST /api/v1/auth/register] *)
Definition post_register (db : Db) (email password name : option string)
    (userNewid passwordHash rowNewid refreshTokenHash : string) (now : Z)
  : Outcome User.t * Db :=
  if negb (truthy email) || negb (truthy password) || negb (truthy name)
  then (Throw (ValidationError "Email, password, and name are required"), db)
  else
    let email := match email with Some e => e | None => "" end in
    let password := match password with Some p => p | None => "" end in
    let name := match name with Some n => n | None => "" end in
    if Nat.ltb (String.length password) 8
    then
      (Throw (ValidationError "Password must be at least 8 characters"), db)
    else
      let emailLower := trim (toLowerCase email) in
      if existsb (fun u => User.email u ==? emailLower) (users db)
      then
        (Throw (ValidationError "User with this email already exists"), db)
      else
        let user := User.mk userNewid emailLower name (Some passwordHash) in
        (Ok 201 user,
         store_refresh_token rowNewid userNewid refreshTokenHash now
           (mkDb (users db ++ [user]) (tenants db) (tenant_members db)
                 (invitations db) (refresh_tokens db)))
  .

(** [POST /api/v1/auth/login] *)
Definition post_login (db : Db) (email password : option string)
    (rowNewid refreshTokenHash : string) (now : Z)
  : Outcome User.t * Db :=
  if negb (truthy email) || negb (truthy password)
  then (Throw (ValidationError "Email and password are required"), db)
  else
    let email := match email with Some e => e | None => "" end in
    let password := match password with Some p => p | None => "" end in
    let denied :=
      (Throw (UnauthorizedError "Invalid email or password"), db) in
    match filter (fun u => User.email u ==? toLowerCase email)
                 (users db) with
    | [] => denied
    | user :: _ =>
        match User.password_hash user with
        | None => denied
        | Some hash =>
            if hash ==? "" then denied
            else if negb (bcrypt_compare password hash) then denied
            else
              (Ok 200 user,
               store_refresh_token rowNewid (User.id user) refreshTokenHash
                 now db)
        end
    end.




(** The loop of logout: the first unrevoked record of the user whose hash
    matches is revoked ([UPDATE ... WHERE id = @token_id]). *)
Definition revoke_first_match (refreshToken userId : string) (now : Z)
    (rows : list RefreshToken.t) : list RefreshToken.t :=
  match find (fun rt => bcrypt_compare refreshToken
                                       (RefreshToken.token_hash rt))
             (filter (fun rt =>
                        (RefreshToken.user_id rt ==? userId)
                        && match RefreshToken.revoked_at rt with
                           | None => true
                           | Some _ => false
                           end) rows) with
  | None => rows
  | Some token =>
      map (fun rt => if RefreshToken.id rt ==? RefreshToken.id token
                     then RefreshToken.revoke now rt else rt) rows
  end.

(** [POST /api/v1/auth/logout] *)
Definition post_logout (db : Db) (userId : string)
    (refreshToken : option string) (now : Z)
  : Outcome string * Db :=
  (Ok 200 "Logged out successfully",
   if truthy refreshToken
   then with_refresh_tokens
          (revoke_first_match
             (match refreshToken with Some t => t | None => "" end)
             userId now (refresh_tokens db)) db
   else db).

(** *** The database as a transition system *)

Inductive Request :=
| PostRegister (email password name : option string)
    (userNewid passwordHash rowNewid refreshTokenHash : string) (now : Z)
| PostLogin (email password : option string)
    (rowNewid refreshTokenHash : string) (now : Z)
| PostLogout (userId : string) (refreshToken : option string) (now : Z)
| PostTenant (userId : string) (name slug : option string)
    (generatedSlug tenantNewid memberNewid : string) (now : Z)
| PutTenant (claim : option Role) (tenantId : string) (name : option string)
    (settings : bool)
| DeleteTenant (claim : option Role) (tenantId : string)
| PostInvite (claim : option Role) (inviterId tenantId : string)
    (email role : option string) (idNewid token : string) (now : Z)
| PostInviteAccept (userId token memberNewid : string) (now : Z)
| PutMember (claim : option Role) (requesterId tenantId memberId : string)
    (role : option string)
| DeleteMember (claim : option Role) (requesterId tenantId memberId : string)
| PostLeave (userId tenantId : string).

Definition after (db : Db) (r : Request) : Db :=
  match r with
  | PostRegister e p n u h i t now =>
      snd (post_register db e p n u h i t now)
  | PostLogin e p i t now => snd (post_login db e p i t now)
  | PostLogout u t now => snd (post_logout db u t now)
  | PostTenant u n s g t m now => snd (post_tenant db u n s g t m now)
  | PutTenant c t n s => snd (put_tenant db c t n s)
  | DeleteTenant c t => snd (delete_tenant db c t)
  | PostInvite c u t e r i k now => snd (post_invite db c u t e r i k now)
  | PostInviteAccept u k m now => snd (post_invite_accept db u k m now)
  | PutMember c u t m r => snd (put_member db c u t m r)
  | DeleteMember c u t m => snd (delete_member db c u t m)
  | PostLeave u t => snd (post_leave db u t)
  end.

(** [NEWID()] returns an identifier that no row of the table has. *)
Definition fresh (db : Db) (r : Request) : Prop :=
  match r with
  | PostTenant _ _ _ _ tenantNewid memberNewid _ =>
      ~ In tenantNewid (map TenantRow.id (tenants db))
      /\ ~ In memberNewid (map Member.id (tenant_members db))
  | PostInviteAccept _ _ memberNewid _ =>
      ~ In memberNewid (map Member.id (tenant_members db))
  | _ => True
  end.

Definition member_operation (r : Request) : bool :=
  match r with
  | PutMember _ _ _ _ _ | DeleteMember _ _ _ _ | PostLeave _ _ => true
  | _ => false
  end.

Inductive reachable : Db -> Prop :=
| reachable_empty : reachable empty
| reachable_after db r :
    reachable db -> fresh db r -> reachable (after db r).

End Routes.

(** The OWNER rows of a tenant. *)
Definition owners_of (db : Db) (tenantId : string) : list Member.t :=
  filter (fun m => (Member.tenant_id m ==? tenantId)
                   && Role_eqb (Member.role m) OWNER)
         (tenant_members db).


Definition membership_count (db : Db) (tenantId userId : string) : nat :=
  List.length (filter (member_of tenantId userId) (tenant_members db)).

End Sql.

(* ================================================================== *)
(** ** A concrete platform, to run the handlers on examples *)

Definition lower_ascii (c : ascii) : ascii :=
  let n := nat_of_ascii c in
  if Nat.leb 65 n && Nat.leb n 90 then ascii_of_nat (n + 32) else c.

Fixpoint lower (s : string) : string :=
  match s with
  | EmptyString => EmptyString
  | String c rest => String (lower_ascii c) (lower rest)
  end.

(** Three tokens are known to the example verifier: one issued to user
    [u9] while in tenant [T1] as an admin, and one that has expired. *)
Definition example_verify (token : string) : VerifyResult :=
  if token ==? "token-u9-T1-admin"
  then Verified (JwtPayload.mk (Some "u9") (Some "u9") "u9@x.com" "Nine"
                               (Some "T1") (Some ADMIN))
  else if token ==? "token-expired" then TokenExpiredError
  else JsonWebTokenError.

(** The example hash of a token is the token behind a fixed prefix. *)
Definition example_compare (data hash : string) : bool :=
  hash ==? ("$2a$10$" ++ data)%string.

Definition example_platform : Platform :=
  Build_Platform lower (fun s => s) example_compare example_verify.

(** Tenant resolution in the words of the specification: the URL path
    parameter when present, otherwise the header when present, otherwise
    the token claim when present, otherwise no tenant.  A value is present
    when it is a non-empty string. *)
Definition resolve (req : Request.t) : option string :=
  if truthy (Request.params_tenantId req) then Request.params_tenantId req
  else if truthy (Request.x_tenant_id req) then Request.x_tenant_id req
  else match Request.user req with
       | Some u =>
           if truthy (AuthenticatedUser.tenantId u)
           then AuthenticatedUser.tenantId u
           else None
       | None => None
       end.

(** [hierarchy.outranks(actorRole, targetRole)] *)
Definition outranks (actorRole targetRole : Role) : bool :=
  RoleHierarchy targetRole <? RoleHierarchy actorRole.

(* ================================================================== *)
(** ** Invariants, specification predicates and example data *)





(** Example runs.

    Tenant [T2] is created by [u1]; [u1] invites an editor and two admins;
    [u2] (editor, in memory) or [u2] and [u3] (admins, in SQL) accept.
    User [u9] is a member of no tenant here; the token known to
    [example_verify] says [u9] is an admin of another tenant, [T1]. *)
Definition example_mem_requests : list Mem.Request :=
  [ Mem.PostTenant "u1" (Some "Acme") None "acme-1a2b3c4d" "T2" "m1" 10;
    Mem.PostInvite "u1" "T2" (Some "Editor@X.com") (Some "editor")
      "i1" "k1" 20;
    Mem.PostAccept "u2" "editor@x.com" "k1" "m2" 30;
    Mem.PostInvite "u1" "T2" (Some "late@x.com") None "i2" "k2" 40 ].

Definition example_store : Mem.Store :=
  fold_left (Mem.after (P := example_platform)) example_mem_requests
            Mem.empty.

Definition example_sql_requests : list Sql.Request :=
  [ Sql.PostRegister (Some "owner@x.com") (Some "password1") (Some "Owner")
      "u1" "$2a$12$pw1" "r1" "$2a$10$refresh-u1" 1;
    Sql.PostRegister (Some "admin2@x.com") (Some "password2") (Some "Two")
      "u2" "$2a$12$pw2" "r2" "$2a$10$refresh-u2" 2;
    Sql.PostRegister (Some "admin3@x.com") (Some "password3") (Some "Three")
      "u3" "$2a$12$pw3" "r3" "$2a$10$refresh-u3" 3;
    Sql.PostTenant "u1" (Some "Acme") None "acme-1a2b3c4d" "T2" "m1" 10;
    Sql.PostInvite (Some OWNER) "u1" "T2" (Some "admin2@x.com")
      (Some "admin") "i2" "k2" 20;
    Sql.PostInvite (Some OWNER) "u1" "T2" (Some "admin3@x.com")
      (Some "admin") "i3" "k3" 21;
    Sql.PostInviteAccept "u2" "k2" "m2" 30;
    Sql.PostInviteAccept "u3" "k3" "m3" 31 ].

Definition example_db : Sql.Db :=
  fold_left (Sql.after (P := example_platform)) example_sql_requests
            Sql.empty.



(** The example runs stopped before and after the first accept. *)
Definition example_store_invited : Mem.Store :=
  fold_left (Mem.after (P := example_platform))
            (firstn 2 example_mem_requests) Mem.empty.

Definition example_db_invited : Sql.Db :=
  fold_left (Sql.after (P := example_platform))
            (firstn 6 example_sql_requests) Sql.empty.

Definition example_store_accepted : Mem.Store :=
  fold_left (Mem.after (P := example_platform))
            (firstn 3 example_mem_requests) Mem.empty.

Definition example_db_accepted : Sql.Db :=
  fold_left (Sql.after (P := example_platform))
            (firstn 7 example_sql_requests) Sql.empty.

(** A request of [u9] that names tenant [T2] in its header. *)
Definition example_request : Request.t :=
  Request.mk (Some "Bearer token-u9-T1-admin") (Some "T2") None None None.

Definition example_user : AuthenticatedUser.t :=
  AuthenticatedUser.mk (Some "u9") "u9@x.com" "Nine" (Some "T1")
                       (Some ADMIN).

(* ================================================================== *)
(** * Properties *)

(** ** Basic facts *)



Lemma InvitationStatus_eqb_eq (a b : InvitationStatus) :
  InvitationStatus_eqb a b = true <-> a = b.
Proof. destruct a, b; simpl; split; congruence. Qed.

Lemma truthy_Some (s : string) : truthy (Some s) = true <-> s <> "".
Proof.
  unfold truthy. rewrite negb_true_iff. apply String.eqb_neq.
Qed.

(** ** Tenant resolver *)

(** C6. [extractTenant] always calls [next()], and the tenant it leaves on
    the request is the URL path parameter when present, otherwise the
    [X-Tenant-ID] header when present, otherwise the tenant claim of the
    token when present; when none is present the request is passed on
    untouched, so a request that arrives without a tenant leaves without
    one. *)
Theorem C6_extractTenant_priority (req : Request.t) :
  exists req',
    extractTenant req = Next req'
    /\ Request.authorization req' = Request.authorization req
    /\ Request.x_tenant_id req' = Request.x_tenant_id req
    /\ Request.params_tenantId req' = Request.params_tenantId req
    /\ Request.user req' = Request.user req
    /\ Request.tenantId req'
       = match resolve req with
         | Some t => Some t
         | None => Request.tenantId req
         end
    /\ (Request.tenantId req = None -> Request.tenantId req' = resolve req).
Proof.
  unfold extractTenant, resolve, js_or.
  destruct req as [a h p u t]; simpl.
  destruct (truthy p) eqn:Hp; simpl; rewrite ?Hp.
  - eexists; split; [reflexivity|]; simpl.
    destruct p; [|discriminate]. repeat split. 
  - destruct (truthy h) eqn:Hh; simpl; rewrite ?Hh.
    + eexists; split; [reflexivity|]; simpl.
      destruct h; [|discriminate]. repeat split.
    + destruct u as [u|]; simpl.
      * destruct (truthy (AuthenticatedUser.tenantId u)) eqn:Hc.
        -- eexists; split; [reflexivity|]; simpl.
           destruct (AuthenticatedUser.tenantId u); [|discriminate].
           repeat split.
        -- eexists; split; [reflexivity|]; simpl. repeat split; auto.
      * eexists; split; [reflexivity|]; simpl. repeat split; auto.
Qed.

(** ** Optional authentication *)

Section OptionalAuth.
Context {P : Platform}.

(** C10. [optionalAuth] always calls [next()] and never answers the
    request itself.  When the bearer token is absent, or its verification
    fails (expired, malformed, or any other error), the request goes on
    exactly as it came, so no user is attached by this middleware; the
    request's user changes only when a token was verified, and then it is
    the decoded user. *)
Theorem C10_optionalAuth_never_rejects (req : Request.t) :
  exists req',
    optionalAuth req = Next req'
    /\ (no_bearer (Request.authorization req) = true -> req' = req)
    /\ (forall h,
          Request.authorization req = Some h ->
          (forall d, jwt_verify (substring_from 7 h) <> Verified d) ->
          req' = req)
    /\ (forall h d,
          Request.authorization req = Some h ->
          no_bearer (Some h) = false ->
          jwt_verify (substring_from 7 h) = Verified d ->
          req' = Request.set_user (user_of_decoded d) req)
    /\ (req' <> req ->
        exists h d,
          Request.authorization req = Some h
          /\ startsWith h "Bearer " = true
          /\ jwt_verify (substring_from 7 h) = Verified d
          /\ Request.user req' = Some (user_of_decoded d)).
Proof.
  unfold optionalAuth.
  destruct (Request.authorization req) as [h|] eqn:Hh.
  2:{ exists req. split; [reflexivity|]. split; [reflexivity|].
      split; [discriminate|]. split; [discriminate|]. congruence. }
  destruct (no_bearer (Some h)) eqn:Hb.
  { exists req. split; [reflexivity|]. split; [reflexivity|].
    split; [reflexivity|]. split; [|congruence].
    intros h' d E. inversion E; subst. congruence. }
  assert (Hpre : startsWith h "Bearer " = true).
  { simpl in Hb. apply orb_false_iff in Hb. destruct Hb as [_ Hb].
    now apply negb_false_iff in Hb. }
  destruct (jwt_verify (substring_from 7 h)) as [d| | |] eqn:Hv.
  - eexists. split; [reflexivity|]. split; [discriminate|].
    split; [|split].
    + intros h' E Hn. inversion E; subst. congruence.
    + intros h' d' E _ Hv'. inversion E; subst.
      rewrite Hv in Hv'. inversion Hv'. reflexivity.
    + intros _. exists h, d. repeat split; trivial.
  - exists req. split; [reflexivity|]. split; [reflexivity|].
    split; [reflexivity|]. split; [|congruence].
    intros h' d E _ Hv'. inversion E; subst. congruence.
  - exists req. split; [reflexivity|]. split; [reflexivity|].
    split; [reflexivity|]. split; [|congruence].
    intros h' d E _ Hv'. inversion E; subst. congruence.
  - exists req. split; [reflexivity|]. split; [reflexivity|].
    split; [reflexivity|]. split; [|congruence].
    intros h' d E _ Hv'. inversion E; subst. congruence.
Qed.

End OptionalAuth.

(** ** JavaScript maps *)

Section JsMapFacts.
Context {V : Type}.
Implicit Types (m : JsMap V) (p : V -> bool) (f : V -> V).

Lemma find_mutate_none p f m :
  find p (map_values m) = None -> find_mutate p f m = m.
Proof.
  induction m as [|[k v] m IH]; simpl; [reflexivity|].
  destruct (p v); [discriminate|]. intros H. now rewrite IH.
Qed.

(** The entry that [find] returns is the one that [find_mutate] changes,
    and it is the only one. *)
Lemma find_mutate_some p f m v :
  find p (map_values m) = Some v ->
  exists before key rest,
    m = before ++ (key, v) :: rest
    /\ find p (map_values before) = None
    /\ find_mutate p f m = before ++ (key, f v) :: rest.
Proof.
  induction m as [|[k w] m IH]; simpl; [discriminate|].
  destruct (p w) eqn:Hp.
  - intros E. inversion E; subst. exists [], k, m. simpl. auto.
  - intros E. destruct (IH E) as (b & key & r & -> & Hb & Hm).
    exists ((k, w) :: b), key, r. simpl. rewrite Hp, Hm. auto.
Qed.

Lemma find_app_none p (l1 l2 : list V) :
  find p l1 = None -> find p (l1 ++ l2) = find p l2.
Proof.
  induction l1 as [|x l1 IH]; simpl; [reflexivity|].
  destruct (p x); [discriminate | exact IH].
Qed.

Lemma find_after_find_mutate p f m v :
  find p (map_values m) = Some v ->
  p (f v) = true ->
  find p (map_values (find_mutate p f m)) = Some (f v).
Proof.
  intros Hf Hp. destruct (find_mutate_some p f m v Hf)
    as (b & key & r & -> & Hb & ->).
  unfold map_values in *. rewrite map_app, find_app_none by exact Hb.
  simpl. now rewrite Hp.
Qed.

Lemma find_none_filter p (l : list V) :
  find p l = None <-> filter p l = [].
Proof.
  induction l as [|x l IH]; simpl; [tauto|].
  destruct (p x); [split; discriminate | exact IH].
Qed.

Lemma map_get_In k m v : map_get k m = Some v -> In (k, v) m.
Proof.
  induction m as [|[k' w] m IH]; simpl; [discriminate|].
  destruct (k' ==? k) eqn:E.
  - apply String.eqb_eq in E. intros H. inversion H; subst. now left.
  - intros H. right. auto.
Qed.

Lemma map_get_fresh k m : ~ In k (map_keys m) -> map_get k m = None.
Proof.
  induction m as [|[k' w] m IH]; simpl; [reflexivity|].
  intros H. destruct (k' ==? k) eqn:E.
  - apply String.eqb_eq in E. tauto.
  - apply IH. tauto.
Qed.


Lemma map_get_set_same k v m : map_get k (map_set k v m) = Some v.
Proof.
  induction m as [|[k' w] m IH]; simpl.
  - now rewrite String.eqb_refl.
  - destruct (k' ==? k) eqn:E; simpl.
    + now rewrite String.eqb_refl.
    + now rewrite E.
Qed.

(** Replacing or adding an entry whose value satisfies [p], in a map none
    of whose values does, leaves exactly that value. *)
Lemma filter_map_set_only p k v m :
  filter p (map_values m) = [] -> p v = true ->
  filter p (map_values (map_set k v m)) = [v].
Proof.
  induction m as [|[k' w] m IH]; simpl; intros Hm Hv.
  - now rewrite Hv.
  - destruct (p w) eqn:Hw; [discriminate|].
    destruct (k' ==? k); simpl.
    + now rewrite Hv, Hm.
    + rewrite Hw. auto.
Qed.




Lemma map_keys_find_mutate p f m :
  map_keys (find_mutate p f m) = map_keys m.
Proof.
  induction m as [|[k' w] m IH]; simpl; [reflexivity|].
  destruct (p w); simpl; [reflexivity | now rewrite IH].
Qed.




End JsMapFacts.

(** ** Invitations in the in-memory routes *)

Section MemInvitations.
Context {P : Platform}.


Lemma find_has_token token l i :
  find (Mem.has_token token) l = Some i -> Mem.has_token token i = true.
Proof. intros H. now apply find_some in H. Qed.



(** An accepted invitation cannot be accepted again, and the accepting
    user holds exactly one membership in the tenant. *)
Lemma mem_accept_single_use st userId userEmail token memberUuid now
      data st' :
  Mem.post_invitations_accept st userId userEmail token memberUuid now
    = (Ok 200 data, st') ->
  exists invitation,
    find (Mem.has_token token) (map_values (Mem.invitations st))
      = Some invitation
    /\ Invitation.status invitation = PENDING
    /\ (exists accepted,
          find (Mem.has_token token) (map_values (Mem.invitations st'))
            = Some accepted
          /\ Invitation.status accepted = ACCEPTED)
    /\ Mem.membership_count st (Invitation.tenantId invitation) userId = 0%nat
    /\ Mem.membership_count st' (Invitation.tenantId invitation) userId
       = 1%nat
    /\ (exists membership,
          map_get memberUuid (Mem.tenantMembers st') = Some membership
          /\ TenantMember.userId membership = userId
          /\ TenantMember.tenantId membership
             = Invitation.tenantId invitation
          /\ TenantMember.role membership = Invitation.role invitation)
    /\ forall userId2 userEmail2 memberUuid2 now2,
         Mem.post_invitations_accept st' userId2 userEmail2 token
           memberUuid2 now2
         = (Throw (ValidationError "Invitation has already been accepted"),
            st').
Proof.
  unfold Mem.post_invitations_accept.
  destruct (find (Mem.has_token token) (map_values (Mem.invitations st)))
    as [inv|] eqn:Hf; [|discriminate].
  destruct (InvitationStatus_eqb (Invitation.status inv) PENDING) eqn:Hs;
    simpl; [|discriminate].
  destruct (Invitation.expiresAt inv <? now); [discriminate|].
  destruct (negb (toLowerCase userEmail ==? Invitation.email inv));
    [discriminate|].
  destruct (find (Mem.is_member (Invitation.tenantId inv) userId)
                 (map_values (Mem.tenantMembers st))) eqn:Hm;
    [discriminate|].
  intros E. inversion E; subst; clear E.
  set (acc := fun i => Invitation.set_updatedAt now
                         (Invitation.set_status ACCEPTED i)).
  assert (Hf' : find (Mem.has_token token)
                  (map_values (find_mutate (Mem.has_token token) acc
                                 (Mem.invitations st)))
                = Some (acc inv)).
  { apply find_after_find_mutate; [exact Hf|].
    unfold acc. apply (find_has_token _ _ _ Hf). }
  exists inv. split; [reflexivity|].
  split; [now apply InvitationStatus_eqb_eq|].
  split; [exists (acc inv); split; [exact Hf' | reflexivity]|].
  apply find_none_filter in Hm.
  split; [unfold Mem.membership_count; now rewrite Hm|].
  split.
  { unfold Mem.membership_count. simpl.
    rewrite (filter_map_set_only _ _ _ _ Hm); [reflexivity|].
    unfold Mem.is_member. simpl. now rewrite !String.eqb_refl. }
  split.
  { eexists. split; [apply map_get_set_same|]. simpl. auto. }
  intros. simpl. fold acc. rewrite Hf'. reflexivity.
Qed.

(** What the in-memory invite route does once the request passed its
    validation and the inviter is an active owner or admin. *)
Lemma mem_invite_pending_check st userId tenantId email role r inviter
      idUuid tokenUuid now :
  email <> "" ->
  Mem.invite_role role = Some r ->
  Mem.activeMembership st tenantId userId = Some inviter ->
  TenantMember.role inviter = OWNER \/ TenantMember.role inviter = ADMIN ->
  Mem.post_invite st userId tenantId (Some email) role idUuid tokenUuid now
  = match find (Mem.is_pending_for tenantId (toLowerCase email))
               (map_values (Mem.invitations st)) with
    | Some _ =>
        (Throw (ValidationError
                  "An invitation for this email is already pending"), st)
    | None =>
        let invitation :=
          Invitation.mk idUuid tenantId (toLowerCase email) r PENDING
            userId tokenUuid (now + seven_days_ms) now now in
        (Ok 201 invitation,
         Mem.with_invitations
           (map_set idUuid invitation (Mem.invitations st)) st)
    end.
Proof.
  intros He Hr Hi Hrole. unfold Mem.post_invite.
  apply String.eqb_neq in He. rewrite He, Hr, Hi.
  destruct Hrole as [-> | ->]; reflexivity.
Qed.

End MemInvitations.

(** ** Lists of rows *)

Section RowFacts.
Context {A : Type}.
Implicit Types (l : list A) (p : A -> bool).

Lemma NoDup_map_eq (f : A -> string) l a b :
  NoDup (map f l) -> In a l -> In b l -> f a = f b -> a = b.
Proof.
  induction l as [|x l IH]; simpl; [tauto|].
  intros Hnd Ha Hb E. inversion Hnd as [|? ? Hx Hl]; subst.
  destruct Ha as [->|Ha], Hb as [->|Hb]; auto.
  - exfalso. apply Hx. rewrite E. now apply in_map.
  - exfalso. apply Hx. rewrite <- E. now apply in_map.
Qed.

Lemma find_none_iff p l :
  find p l = None <-> forall x, In x l -> p x = false.
Proof.
  split; [apply find_none|].
  induction l as [|x l IH]; simpl; [reflexivity|].
  intros H. rewrite (H x) by now left. apply IH. auto.
Qed.

Lemma filter_nil_iff p l :
  filter p l = [] <-> forall x, In x l -> p x = false.
Proof.
  rewrite <- find_none_filter. apply find_none_iff.
Qed.



End RowFacts.

(** ** Invitations and leaving in the SQL routes *)

Section SqlMembers.
Context {P : Platform}.

Lemma sql_accept_single_use db userId token memberNewid now member db' :
  NoDup (map Sql.InvitationRow.token (Sql.invitations db)) ->
  Sql.post_invite_accept db userId token memberNewid now
    = (Ok 200 member, db') ->
  Sql.Member.user_id member = userId
  /\ (exists invitation,
        In invitation (Sql.invitations db)
        /\ Sql.InvitationRow.token invitation = token
        /\ Sql.InvitationRow.status invitation = PENDING
        /\ Sql.Member.tenant_id member
           = Sql.InvitationRow.tenant_id invitation
        /\ Sql.Member.role member = Sql.InvitationRow.role invitation
        /\ In (Sql.InvitationRow.accept now invitation)
              (Sql.invitations db'))
  /\ Sql.membership_count db (Sql.Member.tenant_id member) userId = 0%nat
  /\ Sql.membership_count db' (Sql.Member.tenant_id member) userId = 1%nat
  /\ forall userId2 memberNewid2 now2,
       Sql.post_invite_accept db' userId2 token memberNewid2 now2
       = (Throw (NotFoundError "Invalid or expired invitation" None), db').
Proof.
  intros Hnd. unfold Sql.post_invite_accept.
  destruct (filter (Sql.acceptable token now) (Sql.invitations db))
    as [|inv tl] eqn:Hq; [discriminate|].
  destruct (filter (fun u => Sql.User.id u ==? userId) (Sql.users db))
    as [|user ?]; [discriminate|].
  destruct (negb (toLowerCase (Sql.User.email user)
                  ==? toLowerCase (Sql.InvitationRow.email inv)));
    [discriminate|].
  destruct (existsb (Sql.member_of (Sql.InvitationRow.tenant_id inv) userId)
                    (Sql.tenant_members db)) eqn:Hex; [discriminate|].
  intros E. inversion E; subst; clear E. simpl.
  assert (Hinv : In inv (filter (Sql.acceptable token now)
                                (Sql.invitations db)))
    by (rewrite Hq; now left).
  apply filter_In in Hinv. destruct Hinv as [Hin Hacc].
  unfold Sql.acceptable in Hacc.
  apply andb_true_iff in Hacc. destruct Hacc as [Hacc _].
  apply andb_true_iff in Hacc. destruct Hacc as [Htok Hst].
  apply String.eqb_eq in Htok. apply InvitationStatus_eqb_eq in Hst.
  split; [reflexivity|]. split.
  { exists inv. repeat split; auto.
    apply in_map_iff. exists inv. now rewrite String.eqb_refl. }
  assert (Hnone : filter (Sql.member_of (Sql.InvitationRow.tenant_id inv)
                            userId) (Sql.tenant_members db) = []).
  { apply filter_nil_iff. intros x Hx.
    destruct (Sql.member_of _ _ x) eqn:Hm; [|reflexivity].
    rewrite <- Hex. symmetry. apply existsb_exists. eauto. }
  split; [unfold Sql.membership_count; now rewrite Hnone|].
  split.
  { unfold Sql.membership_count. simpl. rewrite filter_app, Hnone. simpl.
    unfold Sql.member_of. simpl. now rewrite !String.eqb_refl. }
  intros userId2 memberNewid2 now2.
  replace (filter (Sql.acceptable token now2) _) with (@nil Sql.InvitationRow.t);
    [reflexivity|].
  symmetry. apply filter_nil_iff. intros x Hx.
  apply in_map_iff in Hx. destruct Hx as (i & Hi & Hini).
  destruct (Sql.InvitationRow.id i ==? Sql.InvitationRow.id inv) eqn:Hid.
  - subst x. unfold Sql.acceptable. simpl.
    now rewrite andb_false_r.
  - subst x. unfold Sql.acceptable.
    destruct (Sql.InvitationRow.token i ==? token) eqn:Ht; [|reflexivity].
    apply String.eqb_eq in Ht.
    assert (i = inv) by (eapply NoDup_map_eq; eauto; congruence).
    subst i. rewrite String.eqb_refl in Hid. discriminate.
Qed.


End SqlMembers.

(** ** Refresh tokens *)

Section RefreshTokens.
Context {P : Platform}.








End RefreshTokens.

(** ** The single-owner invariant of the in-memory store *)







Section MemInvariant.
Context {P : Platform}.














End MemInvariant.

(** ** The single-owner invariant of the SQL tables *)

Section FilterFacts.
Context {A : Type}.
Implicit Types (l : list A) (q r : A -> bool).






End FilterFacts.





Section SqlInvariant.
Context {P : Platform}.















End SqlInvariant.

(* ================================================================== *)
(** ** The example runs are reachable *)





Example example_store_members :
  map_values (Mem.tenantMembers example_store)
  = [ TenantMember.mk "m1" "T2" "u1" OWNER 10 (Some "u1") false 10 10;
      TenantMember.mk "m2" "T2" "u2" EDITOR 30 (Some "u1") false 30 30 ].
Proof. reflexivity. Qed.

Example example_store_invitations :
  map_values (Mem.invitations example_store)
  = [ Invitation.mk "i1" "T2" "editor@x.com" EDITOR ACCEPTED "u1" "k1"
        604800020 20 30;
      Invitation.mk "i2" "T2" "late@x.com" VIEWER PENDING "u1" "k2"
        604800040 40 40 ].
Proof. reflexivity. Qed.

Example example_db_members :
  Sql.tenant_members example_db
  = [ Sql.Member.mk "m1" "T2" "u1" OWNER 10 (Some "u1") false;
      Sql.Member.mk "m2" "T2" "u2" ADMIN 30 (Some "u1") false;
      Sql.Member.mk "m3" "T2" "u3" ADMIN 31 (Some "u1") false ].
Proof. reflexivity. Qed.

(* ================================================================== *)
(** ** Exactly one owner per tenant *)

Section SingleOwner.
Context {P : Platform}.




End SingleOwner.


(* ================================================================== *)
(** ** Rank checks on membership changes *)

Section RankChecks.
Context {P : Platform}.

(** In the in-memory routes a role change, a suspension and the removal
    of somebody else succeed only when the actor's membership strictly
    outranks the target's. *)
Lemma mem_mutations_require_outranking st userId tenantId memberId :
  (forall role now data st',
      Mem.put_member_role st userId tenantId memberId role now
        = (Ok 200 data, st') ->
      exists actor target,
        Mem.activeMembership st tenantId userId = Some actor
        /\ map_get memberId (Mem.tenantMembers st) = Some target
        /\ outranks (TenantMember.role actor) (TenantMember.role target)
           = true)
  /\ (forall now data st',
        Mem.put_member_suspend st userId tenantId memberId now
          = (Ok 200 data, st') ->
        exists actor target,
          Mem.activeMembership st tenantId userId = Some actor
          /\ map_get memberId (Mem.tenantMembers st) = Some target
          /\ outranks (TenantMember.role actor) (TenantMember.role target)
             = true)
  /\ (forall data st',
        Mem.delete_member st userId tenantId memberId = (Ok 200 data, st') ->
        exists actor target,
          Mem.activeMembership st tenantId userId = Some actor
          /\ map_get memberId (Mem.tenantMembers st) = Some target
          /\ (TenantMember.userId target = userId
              \/ outranks (TenantMember.role actor)
                          (TenantMember.role target) = true)).
Proof.
  unfold outranks. split; [|split].
  - intros role now data st'. unfold Mem.put_member_role.
    destruct (Mem.body_role role) as [r|]; [|discriminate].
    destruct (map_get memberId (Mem.tenantMembers st)) as [target|];
      [|discriminate].
    destruct (negb _); [discriminate|].
    destruct (Mem.activeMembership st tenantId userId) as [actor|];
      [|discriminate].
    destruct (Role_eqb (TenantMember.role target) OWNER); [discriminate|].
    destruct (Role_eqb r OWNER); [discriminate|].
    destruct (_ <=? _) eqn:Hle; [discriminate|].
    intros _. exists actor, target. repeat split.
    apply Z.ltb_lt. apply Z.leb_gt in Hle. exact Hle.
  - intros now data st'. unfold Mem.put_member_suspend.
    destruct (map_get memberId (Mem.tenantMembers st)) as [target|];
      [|discriminate].
    destruct (negb _); [discriminate|].
    destruct (Role_eqb (TenantMember.role target) OWNER); [discriminate|].
    destruct (_ ==? userId); [discriminate|].
    destruct (Mem.activeMembership st tenantId userId) as [actor|];
      [|discriminate].
    destruct (TenantMember.role actor) eqn:Hr; try discriminate;
      (destruct (_ <=? _) eqn:Hle; [discriminate|];
       intros _; exists actor, target; repeat split;
       rewrite Hr; apply Z.ltb_lt; apply Z.leb_gt in Hle; exact Hle).
  - intros data st'. unfold Mem.delete_member.
    destruct (map_get memberId (Mem.tenantMembers st)) as [target|];
      [|discriminate].
    destruct (negb _); [discriminate|].
    destruct (Role_eqb (TenantMember.role target) OWNER); [discriminate|].
    destruct (Mem.activeMembership st tenantId userId) as [actor|];
      [|discriminate].
    destruct (TenantMember.userId target ==? userId) eqn:Hself.
    + intros _. exists actor, target. repeat split. left.
      now apply String.eqb_eq.
    + simpl. destruct (negb _); [discriminate|].
      destruct (_ <=? _) eqn:Hle; [discriminate|].
      intros _. exists actor, target. repeat split. right.
      apply Z.ltb_lt. apply Z.leb_gt in Hle. exact Hle.
Qed.

End RankChecks.

(** C2 (the SQL routes do not check rank). In the SQL members router an
    admin changes the role of another admin, and removes another admin:
    the actor does not outrank the target, and both requests succeed. *)
Theorem C2_sql_admin_changes_admin :
  outranks ADMIN ADMIN = false
  /\ In (Sql.Member.mk "m2" "T2" "u2" ADMIN 30 (Some "u1") false)
        (Sql.tenant_members example_db)
  /\ In (Sql.Member.mk "m3" "T2" "u3" ADMIN 31 (Some "u1") false)
        (Sql.tenant_members example_db)
  /\ Sql.put_member example_db (Some ADMIN)
       "u2" "T2" "m3" (Some "viewer")
     = (Ok 200 ("m3", "u3", VIEWER),
        Sql.with_tenant_members
          [ Sql.Member.mk "m1" "T2" "u1" OWNER 10 (Some "u1") false;
            Sql.Member.mk "m2" "T2" "u2" ADMIN 30 (Some "u1") false;
            Sql.Member.mk "m3" "T2" "u3" VIEWER 31 (Some "u1") false ]
          example_db)
  /\ Sql.delete_member example_db (Some ADMIN)
       "u2" "T2" "m3"
     = (Ok 200 "Member removed successfully",
        Sql.with_tenant_members
          [ Sql.Member.mk "m1" "T2" "u1" OWNER 10 (Some "u1") false;
            Sql.Member.mk "m2" "T2" "u2" ADMIN 30 (Some "u1") false ]
          example_db).
Proof.
  split; [reflexivity|].
  split; [vm_compute; right; left; reflexivity|].
  split; [vm_compute; right; right; left; reflexivity|].
  split; vm_compute; reflexivity.
Qed.

(* ================================================================== *)
(** ** Invitations: expiry, single use, duplicates *)



Section AcceptOnce.
Context {P : Platform}.

(** C4. A successful accept marks the invitation accepted and leaves the
    accepting user with exactly one membership in the tenant; every later
    accept of the same token, by anyone and at any time, fails and changes
    nothing: in the in-memory route with the validation error "Invitation
    has already been accepted", in the SQL route (tokens being unique in
    [invitations]) with [NotFoundError].  No second membership is
    created. *)
Theorem C4_accept_is_single_use :
  (forall st userId userEmail token memberUuid now data st',
      Mem.post_invitations_accept st userId userEmail token memberUuid now
        = (Ok 200 data, st') ->
      exists invitation accepted,
        find (Mem.has_token token) (map_values (Mem.invitations st))
          = Some invitation
        /\ Invitation.status invitation = PENDING
        /\ find (Mem.has_token token) (map_values (Mem.invitations st'))
           = Some accepted
        /\ Invitation.status accepted = ACCEPTED
        /\ Mem.membership_count st' (Invitation.tenantId invitation) userId
           = 1%nat
        /\ forall userId2 userEmail2 memberUuid2 now2,
             let again :=
               Mem.post_invitations_accept st' userId2 userEmail2 token
                 memberUuid2 now2 in
             again
             = (Throw (ValidationError
                         "Invitation has already been accepted"), st')
             /\ Mem.membership_count (snd again)
                  (Invitation.tenantId invitation) userId = 1%nat)
  /\ (forall db userId token memberNewid now member db',
        NoDup (map Sql.InvitationRow.token (Sql.invitations db)) ->
        Sql.post_invite_accept db userId token memberNewid now
          = (Ok 200 member, db') ->
        (exists invitation,
           In invitation (Sql.invitations db)
           /\ Sql.InvitationRow.token invitation = token
           /\ In (Sql.InvitationRow.accept now invitation)
                 (Sql.invitations db'))
        /\ Sql.membership_count db' (Sql.Member.tenant_id member) userId
           = 1%nat
        /\ forall userId2 memberNewid2 now2,
             let again :=
               Sql.post_invite_accept db' userId2 token memberNewid2 now2 in
             again
             = (Throw (NotFoundError "Invalid or expired invitation" None),
                db')
             /\ Sql.membership_count (snd again)
                  (Sql.Member.tenant_id member) userId = 1%nat).
Proof.
  split.
  - intros st userId userEmail token memberUuid now data st' E.
    destruct (mem_accept_single_use _ _ _ _ _ _ _ _ E)
      as (inv & Hf & Hs & (acc & Hf' & Hs') & _ & Hc & _ & Hagain).
    exists inv, acc.
    split; [exact Hf|]. split; [exact Hs|]. split; [exact Hf'|].
    split; [exact Hs'|]. split; [exact Hc|].
    intros. split; [apply Hagain|]. unfold again. rewrite Hagain. exact Hc.
  - intros db userId token memberNewid now member db' Hnd E.
    destruct (sql_accept_single_use _ _ _ _ _ _ _ Hnd E)
      as (_ & (inv & Hin & Htok & _ & _ & _ & Hacc) & _ & Hc & Hagain).
    split; [exists inv; auto|]. split; [exact Hc|].
    intros. split; [apply Hagain|]. unfold again. rewrite Hagain. exact Hc.
Qed.

(** C8 (as amended). In the in-memory invite route, for a request that
    passes validation and comes from an active owner or admin of the
    tenant: while an invitation of that tenant for the lower-cased email
    is pending the request is refused with the validation error "An
    invitation for this email is already pending" and the store is
    unchanged; when every invitation of that tenant for that email is in
    a non-pending state the request succeeds with status 201 and stores a
    new pending invitation. *)
Theorem C8_invite_while_pending
    (st : Mem.Store) (userId tenantId email : string) (role : option string)
    (r : Role) (inviter : TenantMember.t) (idUuid tokenUuid : string)
    (now : Z) :
  email <> "" ->
  Mem.invite_role role = Some r ->
  Mem.activeMembership st tenantId userId = Some inviter ->
  TenantMember.role inviter = OWNER \/ TenantMember.role inviter = ADMIN ->
  let result :=
    Mem.post_invite st userId tenantId (Some email) role idUuid tokenUuid
      now in
  ((exists i, In i (map_values (Mem.invitations st))
              /\ Invitation.tenantId i = tenantId
              /\ Invitation.email i = toLowerCase email
              /\ Invitation.status i = PENDING) ->
   result
   = (Throw (ValidationError
               "An invitation for this email is already pending"), st))
  /\ ((forall i, In i (map_values (Mem.invitations st)) ->
                 Invitation.tenantId i = tenantId ->
                 Invitation.email i = toLowerCase email ->
                 Invitation.status i <> PENDING) ->
      exists invitation,
        result
        = (Ok 201 invitation,
           Mem.with_invitations
             (map_set idUuid invitation (Mem.invitations st)) st)
        /\ Invitation.status invitation = PENDING
        /\ Invitation.tenantId invitation = tenantId
        /\ Invitation.email invitation = toLowerCase email
        /\ Invitation.role invitation = r
        /\ map_get idUuid (Mem.invitations (snd result)) = Some invitation).
Proof.
  intros He Hr Hi Hrole result.
  unfold result.
  rewrite (mem_invite_pending_check st userId tenantId email role r inviter
             idUuid tokenUuid now He Hr Hi Hrole).
  split.
  - intros (i & Hin & Ht & Hem & Hs).
    destruct (find _ _) eqn:Hf; [reflexivity|]. exfalso.
    rewrite find_none_iff in Hf. specialize (Hf i Hin).
    unfold Mem.is_pending_for in Hf.
    rewrite Ht, Hem, Hs, !String.eqb_refl in Hf. discriminate.
  - intros Hall. destruct (find _ _) as [i|] eqn:Hf.
    + exfalso. apply find_some in Hf. destruct Hf as [Hin Hp].
      unfold Mem.is_pending_for in Hp.
      apply andb_true_iff in Hp. destruct Hp as [Hp Hs].
      apply andb_true_iff in Hp. destruct Hp as [Ht Hem].
      apply String.eqb_eq in Ht, Hem. apply InvitationStatus_eqb_eq in Hs.
      exact (Hall i Hin Ht Hem Hs).
    + eexists. split; [reflexivity|]. simpl. repeat split.
      apply map_get_set_same.
Qed.

End AcceptOnce.

Example example_mem_accept :
  Mem.post_invitations_accept (P := example_platform)
    example_store_invited "u2" "editor@x.com" "k1" "m2" 30
  = (Ok 200 (Some (Tenant.mk "T2" "Acme" "acme-1a2b3c4d" None ACTIVE "u1"
                             10 10), EDITOR),
     example_store_accepted).
Proof. reflexivity. Defined.

Example example_sql_accept :
  Sql.post_invite_accept (P := example_platform)
    example_db_invited "u2" "k2" "m2" 30
  = (Ok 200 (Sql.Member.mk "m2" "T2" "u2" ADMIN 30 (Some "u1") false),
     example_db_accepted).
Proof. reflexivity. Defined.

Lemma C4_accept_is_single_use_witness :
  (Mem.post_invitations_accept (P := example_platform)
     example_store_accepted "u2" "editor@x.com" "k1" "m7" 31
   = (Throw (ValidationError "Invitation has already been accepted"),
      example_store_accepted)
   /\ Mem.membership_count example_store_accepted "T2" "u2" = 1%nat)
  /\ NoDup (map Sql.InvitationRow.token (Sql.invitations example_db_invited))
  /\ Sql.post_invite_accept (P := example_platform) example_db_accepted
       "u2" "k2" "m7" 31
     = (Throw (NotFoundError "Invalid or expired invitation" None),
        example_db_accepted)
  /\ Sql.membership_count example_db_accepted "T2" "u2" = 1%nat.
Proof.
  destruct (C4_accept_is_single_use (P := example_platform))
    as [Hmem Hsql].
  split.
  - destruct (Hmem _ _ _ _ _ _ _ _ example_mem_accept)
      as (inv & acc & _ & _ & _ & _ & Hc & Hagain).
    split; [apply Hagain | reflexivity].
  - assert (Hnd : NoDup (map Sql.InvitationRow.token
                             (Sql.invitations example_db_invited))).
    { vm_compute. repeat constructor; simpl; intuition discriminate. }
    split; [exact Hnd|].
    destruct (Hsql _ _ _ _ _ _ _ Hnd example_sql_accept)
      as (_ & Hc & Hagain).
    split; [apply Hagain | exact Hc].
Defined.

Lemma C8_invite_while_pending_witness :
  let owner :=
    TenantMember.mk "m1" "T2" "u1" OWNER 10 (Some "u1") false 10 10 in
  Mem.activeMembership example_store "T2" "u1" = Some owner
  /\ Mem.post_invite (P := example_platform) example_store "u1" "T2"
       (Some "Late@x.com") (Some "editor") "i3" "k3" 50
     = (Throw (ValidationError
                 "An invitation for this email is already pending"),
        example_store)
  /\ exists invitation,
       fst (Mem.post_invite (P := example_platform) example_store "u1" "T2"
              (Some "editor@x.com") (Some "admin") "i3" "k3" 50)
       = Ok 201 invitation
       /\ Invitation.status invitation = PENDING.
Proof.
  intros owner. split; [reflexivity|]. split.
  - apply (C8_invite_while_pending (P := example_platform) example_store
             "u1" "T2" "Late@x.com" (Some "editor") EDITOR owner "i3" "k3"
             50); try reflexivity; [discriminate | now left |].
    exists (Invitation.mk "i2" "T2" "late@x.com" VIEWER PENDING "u1" "k2"
                          604800040 40 40).
    split; [right; left; reflexivity | repeat split].
  - destruct (C8_invite_while_pending (P := example_platform) example_store
                "u1" "T2" "editor@x.com" (Some "admin") ADMIN owner "i3"
                "k3" 50) as [_ Hok];
      try reflexivity; [discriminate | now left |].
    destruct Hok as (invitation & E & Hs & _).
    + intros i [<-|[<-|[]]]; simpl; intros _ E; discriminate.
    + exists invitation. rewrite E. auto.
Defined.

(** C8 as stated fails on the error: the duplicate invitation is refused
    with a [ValidationError] (status 400, code VALIDATION_ERROR), not with
    a [ConflictError] (status 409, code CONFLICT). *)
Lemma C8_counterexample :
  (exists i, In i (map_values (Mem.invitations example_store))
             /\ Invitation.tenantId i = "T2"
             /\ Invitation.email i = "late@x.com"
             /\ Invitation.status i = PENDING)
  /\ (exists e,
        Mem.post_invite (P := example_platform) example_store "u1" "T2"
          (Some "late@x.com") (Some "viewer") "i3" "k3" 50
        = (Throw e, example_store)
        /\ statusCode e = 400
        /\ code e = "VALIDATION_ERROR"
        /\ forall m, e <> ConflictError m).
Proof.
  split.
  - eexists. split; [right; left; reflexivity | repeat split].
  - eexists. split; [reflexivity|]. repeat split. discriminate.
Qed.

(* ================================================================== *)
(** ** Leaving, refresh tokens: the theorems on the example database *)



(* ================================================================== *)
(** ** A tenant named in the header without a membership in it *)

(** [validateTenantMembership] lets every request through that carries a
    user and a tenant id: it reads no store. *)
Lemma validateTenantMembership_passes req u t :
  Request.user req = Some u ->
  Request.tenantId req = Some t ->
  t <> "" ->
  validateTenantMembership req = Next req.
Proof.
  intros Hu Ht Hne. unfold validateTenantMembership. rewrite Hu, Ht.
  apply truthy_Some in Hne. now rewrite Hne.
Qed.

(** The in-memory members route re-reads the store and refuses a user
    without an active membership in the resolved tenant. *)
Lemma mem_get_members_forbidden st userId tenantId :
  Mem.membership_count st tenantId userId = 0%nat ->
  Mem.get_members st userId tenantId
  = Throw (ForbiddenError "You are not a member of this tenant").
Proof.
  unfold Mem.membership_count, Mem.get_members, Mem.activeMembership.
  intros H. apply length_zero_iff_nil in H.
  replace (find _ _) with (@None TenantMember.t); [reflexivity|].
  symmetry. apply find_none_iff. intros m Hm.
  rewrite filter_nil_iff in H. specialize (H m Hm).
  unfold Mem.is_active_member. unfold Mem.is_member in H.
  now rewrite H.
Qed.

(** C5 (the membership check is missing). The request carries a token
    issued for tenant [T1] and the header [X-Tenant-ID: T2]; its user [u9]
    has no membership in [T2].  The resolved tenant is [T2], and the
    in-memory members route answers [ForbiddenError]; but [authenticate],
    [requireTenant], [validateTenantMembership] and [requireMinRole] all
    let the request through, and the SQL invite route then creates an
    invitation into [T2] on [u9]'s behalf. *)
Theorem C5_header_tenant_without_membership :
  let req1 := Request.set_user example_user example_request in
  let req2 := Request.set_tenantId (Some "T2") req1 in
  optionalAuth (P := example_platform) example_request = Next req1
  /\ extractTenant req1 = Next req2
  /\ Request.tenantId req2 = Some "T2"
  /\ Mem.membership_count example_store "T2" "u9" = 0%nat
  /\ Sql.membership_count example_db "T2" "u9" = 0%nat
  /\ Mem.get_members example_store "u9" "T2"
     = Throw (ForbiddenError "You are not a member of this tenant")
  /\ authenticate (P := example_platform) req2 = Next req2
  /\ requireTenant req2 = Next req2
  /\ validateTenantMembership req2 = Next req2
  /\ requireMinRole ADMIN req2 = Next req2
  /\ fst (Sql.post_invite (P := example_platform) example_db
            (AuthenticatedUser.role example_user) "u9" "T2"
            (Some "friend@x.com") (Some "admin") "i9" "k9" 50)
     = Ok 201 (Sql.InvitationRow.mk "i9" "T2" "friend@x.com" ADMIN PENDING
                 "k9" "u9" None 604800050 None).
Proof.
  repeat split.
Qed.
